(** * Reolink parent entity classes

    A shallow embedding of [homeassistant/components/reolink/entity.py]:
    the three coordinator entity classes, their constructors (unique id,
    configuration URL and device-identity record), the [available]
    property, and the attach / remove hooks with the calls they make on
    the shared host object. *)

From Stdlib Require Import ZArith Ascii String List Lia Permutation.
From Stdlib Require Import DecimalString DecimalZ.
From stdpp Require Import base strings gmap.

Local Open Scope Z_scope.
Local Open Scope string_scope.

(** ** Formatting

    An f-string is the concatenation of its pieces; a replacement field
    holding an [int] is rendered in decimal, with a leading minus sign
    for a negative number. *)

Definition str_of_int (z : Z) : string :=
  NilZero.string_of_int (Z.to_int z).

(** The characters of a string, as predicates on them. *)
Fixpoint string_forall (P : ascii -> Prop) (s : string) : Prop :=
  match s with
  | EmptyString => True
  | String a s' => P a /\ string_forall P s'
  end.

Definition underscore : ascii := "_"%char.
Definition no_underscore (s : string) : Prop :=
  string_forall (fun a => a <> underscore) s.

(** ** Data model *)

(** The fields of [Host] (the vendor client, [self._host.api]) that this
    file reads.  The per-channel getters are methods taking the channel. *)
Module Api.
Record t := mk {
  use_https : bool;
  host : string;
  port : Z;
  mac_address : string;
  nvr_name : string;
  model : string;
  manufacturer : string;
  hardware_version : string;
  sw_version : string;
  uid : string;
  session_active : bool;
  is_nvr : bool;
  camera_name : Z -> string;
  camera_model : Z -> string;
  camera_sw_version : Z -> string
}.
End Api.

(** [ReolinkData.host]: the device handle shared by all entities. *)
Module ReolinkHost.
Record t := mk {
  api : Api.t;
  unique_id : string
}.
End ReolinkHost.

(** Modelled from the spec: the coordinator object, which is not part of
    this file; of it the spec only says that it exposes the state of the
    last update (the freshness of the last successful poll). *)
Module DataUpdateCoordinator.
Record t := mk { last_update_success : bool }.
End DataUpdateCoordinator.

Module ReolinkData.
Record t := mk {
  host : ReolinkHost.t;
  device_coordinator : DataUpdateCoordinator.t
}.
End ReolinkData.

(** [ReolinkHostEntityDescription] and [ReolinkChannelEntityDescription]
    carry the same two fields read here, [key] (inherited) and [cmd_key]
    (default [None]); they differ in the arity of [supported], which no
    method of this file calls. *)
Module EntityDescription.
Record t := mk {
  key : string;
  cmd_key : option string
}.
End EntityDescription.

(** [DeviceInfo] is a dictionary in which every key is optional: a key
    not given to the constructor is absent. *)
Module DeviceInfo.
Record t := mk {
  identifiers : option (gset (string * string));
  connections : option (gset (string * string));
  via_device : option (string * string);
  name : option string;
  model : option string;
  manufacturer : option string;
  hw_version : option string;
  sw_version : option string;
  serial_number : option string;
  configuration_url : option string
}.
End DeviceInfo.

(** The three classes; a subclass holds the attributes of its parent. *)
Record ReolinkBaseCoordinatorEntity := mkBase {
  coordinator : DataUpdateCoordinator.t;
  _host : ReolinkHost.t;
  _conf_url : string;
  _attr_device_info : DeviceInfo.t
}.

Record ReolinkHostCoordinatorEntity := mkHost {
  host_super : ReolinkBaseCoordinatorEntity;
  entity_description : EntityDescription.t;
  _attr_unique_id : string
}.

Record ReolinkChannelCoordinatorEntity := mkChannel {
  channel_super : ReolinkHostCoordinatorEntity;
  _channel : Z
}.

(** An entity handed to the platform is an instance of one of the two
    concrete classes; the platform's calls dispatch on it. *)
Inductive Entity :=
| HostEntity (self : ReolinkHostCoordinatorEntity)
| ChannelEntity (self : ReolinkChannelCoordinatorEntity).

Definition entity_host (e : Entity) : ReolinkHostCoordinatorEntity :=
  match e with
  | HostEntity self => self
  | ChannelEntity self => channel_super self
  end.

Definition entity_channel (e : Entity) : option Z :=
  match e with
  | HostEntity _ => None
  | ChannelEntity self => Some (_channel self)
  end.

Definition entity_cmd_key (e : Entity) : option string :=
  EntityDescription.cmd_key (entity_description (entity_host e)).

Definition entity_unique_id (e : Entity) : string :=
  _attr_unique_id (entity_host e).

Definition entity_device_info (e : Entity) : DeviceInfo.t :=
  _attr_device_info (host_super (entity_host e)).

(** ** Constructors *)

Section Constructors.

(** Names imported from modules outside this file. *)
Variable DOMAIN : string.
Variable CONNECTION_NETWORK_MAC : string.
Variable DUAL_LENS_MODELS : gset string.

Definition ReolinkBaseCoordinatorEntity__init__
    (reolink_data : ReolinkData.t) (coordinator : DataUpdateCoordinator.t)
    : ReolinkBaseCoordinatorEntity :=
  let _host := ReolinkData.host reolink_data in
  let api := ReolinkHost.api _host in
  let http_s := if Api.use_https api then "https" else "http" in
  let _conf_url :=
    http_s +:+ "://" +:+ Api.host api +:+ ":" +:+ str_of_int (Api.port api) in
  {| coordinator := coordinator;
     _host := _host;
     _conf_url := _conf_url;
     _attr_device_info :=
       {| DeviceInfo.identifiers :=
            Some {[ (DOMAIN, ReolinkHost.unique_id _host) ]};
          DeviceInfo.connections :=
            Some {[ (CONNECTION_NETWORK_MAC, Api.mac_address api) ]};
          DeviceInfo.via_device := None;
          DeviceInfo.name := Some (Api.nvr_name api);
          DeviceInfo.model := Some (Api.model api);
          DeviceInfo.manufacturer := Some (Api.manufacturer api);
          DeviceInfo.hw_version := Some (Api.hardware_version api);
          DeviceInfo.sw_version := Some (Api.sw_version api);
          DeviceInfo.serial_number := Some (Api.uid api);
          DeviceInfo.configuration_url := Some _conf_url |} |}.

(** [entity_description] is a class attribute the concrete entity
    class sets before the constructor runs. *)
Definition ReolinkHostCoordinatorEntity__init__
    (entity_description : EntityDescription.t)
    (reolink_data : ReolinkData.t) : ReolinkHostCoordinatorEntity :=
  let super :=
    ReolinkBaseCoordinatorEntity__init__ reolink_data
      (ReolinkData.device_coordinator reolink_data) in
  {| host_super := super;
     entity_description := entity_description;
     _attr_unique_id :=
       ReolinkHost.unique_id (_host super) +:+ "_"
         +:+ EntityDescription.key entity_description |}.

Definition ReolinkChannelCoordinatorEntity__init__
    (entity_description : EntityDescription.t)
    (reolink_data : ReolinkData.t) (channel : Z)
    : ReolinkChannelCoordinatorEntity :=
  let super :=
    ReolinkHostCoordinatorEntity__init__ entity_description reolink_data in
  let base := host_super super in
  let api := ReolinkHost.api (_host base) in
  let unique_id := ReolinkHost.unique_id (_host base) in
  let _attr_unique_id :=
    unique_id +:+ "_" +:+ str_of_int channel +:+ "_"
      +:+ EntityDescription.key entity_description in
  let dev_ch :=
    if bool_decide (Api.model api ∈ DUAL_LENS_MODELS) then 0 else channel in
  let _attr_device_info :=
    if Api.is_nvr api then
      {| DeviceInfo.identifiers :=
           Some {[ (DOMAIN, unique_id +:+ "_ch" +:+ str_of_int dev_ch) ]};
         DeviceInfo.connections := None;
         DeviceInfo.via_device := Some (DOMAIN, unique_id);
         DeviceInfo.name := Some (Api.camera_name api dev_ch);
         DeviceInfo.model := Some (Api.camera_model api dev_ch);
         DeviceInfo.manufacturer := Some (Api.manufacturer api);
         DeviceInfo.hw_version := None;
         DeviceInfo.sw_version := Some (Api.camera_sw_version api dev_ch);
         DeviceInfo.serial_number := None;
         DeviceInfo.configuration_url := Some (_conf_url base) |}
    else _attr_device_info base in
  {| channel_super :=
       {| host_super :=
            {| coordinator := coordinator base;
               _host := _host base;
               _conf_url := _conf_url base;
               _attr_device_info := _attr_device_info |};
          entity_description := entity_description;
          _attr_unique_id := _attr_unique_id |};
     _channel := channel |}.

End Constructors.

(** ** Calls made on objects outside this file

    The hooks act on the world only by calling the shared host object and
    the parent class [CoordinatorEntity].  A call is recorded with the
    arguments as passed: [channel = None] is the one-argument (host-scoped)
    form [async_register_update_cmd(cmd_key)], [Some ch] the two-argument
    (channel-scoped) form. *)
Inductive Call :=
| async_register_update_cmd (cmd : string) (channel : option Z)
| async_unregister_update_cmd (cmd : string) (channel : option Z)
| CoordinatorEntity_async_added_to_hass
| CoordinatorEntity_async_will_remove_from_hass.

(** A method runs against the log of the calls made so far (oldest
    first) and returns its result with the log it leaves. *)
Definition Hook (A : Type) : Type := list Call -> A * list Call.

#[global] Instance hook_ret : MRet Hook := fun A (a : A) log => (a, log).

#[global] Instance hook_bind : MBind Hook :=
  fun A B (f : A -> Hook B) (m : Hook A) log =>
    let '(a, log') := m log in f a log'.

Definition call (c : Call) : Hook unit := fun log => (tt, (log ++ [c])%list).

(** The calls a method makes when started on an empty log. *)
Definition calls_of {A} (m : Hook A) : list Call := snd (m []).

(** The [(command key, optional channel)] arguments of the register
    calls of a log, in order; likewise of the unregister calls. *)
Definition registrations (log : list Call) : list (string * option Z) :=
  flat_map (fun c => match c with
                     | async_register_update_cmd cmd ch => [(cmd, ch)]
                     | _ => []
                     end) log.

Definition unregistrations (log : list Call) : list (string * option Z) :=
  flat_map (fun c => match c with
                     | async_unregister_update_cmd cmd ch => [(cmd, ch)]
                     | _ => []
                     end) log.

(** ** The [available] property *)

(** Modelled from the spec: [CoordinatorEntity.available], the
    coordinator's own availability judgment, a read of the state of its
    last update. *)
Definition CoordinatorEntity_available
    (self : ReolinkBaseCoordinatorEntity) : Hook bool :=
  mret (DataUpdateCoordinator.last_update_success (coordinator self)).

(** [x and y] evaluates [y] only when [x] is true. *)
Definition available (self : ReolinkBaseCoordinatorEntity) : Hook bool :=
  if Api.session_active (ReolinkHost.api (_host self))
  then CoordinatorEntity_available self
  else mret false.

Definition entity_available (e : Entity) : Hook bool :=
  available (host_super (entity_host e)).

(** ** Attach and remove hooks *)

Module Host.
Definition async_added_to_hass (self : ReolinkHostCoordinatorEntity)
    : Hook unit :=
  call CoordinatorEntity_async_added_to_hass ;;
  match EntityDescription.cmd_key (entity_description self) with
  | Some cmd_key => call (async_register_update_cmd cmd_key None)
  | None => mret tt
  end.

Definition async_will_remove_from_hass (self : ReolinkHostCoordinatorEntity)
    : Hook unit :=
  match EntityDescription.cmd_key (entity_description self) with
  | Some cmd_key => call (async_unregister_update_cmd cmd_key None)
  | None => mret tt
  end ;;
  call CoordinatorEntity_async_will_remove_from_hass.
End Host.

Module Channel.
Definition async_added_to_hass (self : ReolinkChannelCoordinatorEntity)
    : Hook unit :=
  Host.async_added_to_hass (channel_super self) ;;
  match EntityDescription.cmd_key (entity_description (channel_super self)) with
  | Some cmd_key =>
      call (async_register_update_cmd cmd_key (Some (_channel self)))
  | None => mret tt
  end.

Definition async_will_remove_from_hass (self : ReolinkChannelCoordinatorEntity)
    : Hook unit :=
  match EntityDescription.cmd_key (entity_description (channel_super self)) with
  | Some cmd_key =>
      call (async_unregister_update_cmd cmd_key (Some (_channel self)))
  | None => mret tt
  end ;;
  Host.async_will_remove_from_hass (channel_super self).
End Channel.

(** The platform's calls, dispatched on the class of the entity. *)
Definition async_added_to_hass (e : Entity) : Hook unit :=
  match e with
  | HostEntity self => Host.async_added_to_hass self
  | ChannelEntity self => Channel.async_added_to_hass self
  end.

Definition async_will_remove_from_hass (e : Entity) : Hook unit :=
  match e with
  | HostEntity self => Host.async_will_remove_from_hass self
  | ChannelEntity self => Channel.async_will_remove_from_hass self
  end.

(** One lifecycle of an entity: attached, later removed. *)
Definition lifecycle (e : Entity) : Hook unit :=
  async_added_to_hass e ;; async_will_remove_from_hass e.

(** ** The device handle seen through its two methods

    The bookkeeping behind [async_register_update_cmd] and
    [async_unregister_update_cmd] lives in the host object, outside this
    file; it is taken here as any pair of state transformers on any
    state. *)
Section Handle.
Variable H : Type.
Variable register unregister : string -> option Z -> H -> H.

Definition handle_step (h : H) (c : Call) : H :=
  match c with
  | async_register_update_cmd cmd ch => register cmd ch h
  | async_unregister_update_cmd cmd ch => unregister cmd ch h
  | CoordinatorEntity_async_added_to_hass => h
  | CoordinatorEntity_async_will_remove_from_hass => h
  end.

Definition handle_run (log : list Call) (h : H) : H :=
  fold_left handle_step log h.
End Handle.

Arguments handle_step {H} register unregister h c.
Arguments handle_run {H} register unregister log h.

(** ** The entity the integration sets up

    Platform set-up code instantiates one of the two classes for each
    descriptor: the host-scoped class, or the channel-scoped class for a
    given channel. *)
Section Setup.
Variable DOMAIN : string.
Variable CONNECTION_NETWORK_MAC : string.
Variable DUAL_LENS_MODELS : gset string.

Definition new_entity (reolink_data : ReolinkData.t) (channel : option Z)
    (entity_description : EntityDescription.t) : Entity :=
  match channel with
  | None =>
      HostEntity
        (ReolinkHostCoordinatorEntity__init__ DOMAIN CONNECTION_NETWORK_MAC
           entity_description reolink_data)
  | Some ch =>
      ChannelEntity
        (ReolinkChannelCoordinatorEntity__init__ DOMAIN CONNECTION_NETWORK_MAC
           DUAL_LENS_MODELS entity_description reolink_data ch)
  end.
End Setup.

(** ** Sample devices and descriptors *)
Module Sample.
Definition DOMAIN : string := "reolink".
Definition CONNECTION_NETWORK_MAC : string := "mac".
Definition DUAL_LENS_MODELS : gset string :=
  {[ "Reolink Duo PoE"; "Reolink TrackMix PoE" ]}.

(** A dual-lens camera behind a recorder. *)
Definition api_nvr : Api.t :=
  {| Api.use_https := true;
     Api.host := "192.168.1.10";
     Api.port := 443;
     Api.mac_address := "ec:71:db:00:00:01";
     Api.nvr_name := "Recorder";
     Api.model := "Reolink Duo PoE";
     Api.manufacturer := "Reolink";
     Api.hardware_version := "IPC_529B17B8MP";
     Api.sw_version := "v3.0.0.1";
     Api.uid := "9527000000000001";
     Api.session_active := true;
     Api.is_nvr := true;
     Api.camera_name := fun ch => "Lens " +:+ str_of_int ch;
     Api.camera_model := fun ch => "Model " +:+ str_of_int ch;
     Api.camera_sw_version := fun ch => "fw " +:+ str_of_int ch |}.

(** The same camera connected directly, over plain http. *)
Definition api_camera : Api.t :=
  {| Api.use_https := false;
     Api.host := "192.168.1.11";
     Api.port := 80;
     Api.mac_address := "ec:71:db:00:00:02";
     Api.nvr_name := "Front door";
     Api.model := "Reolink Duo PoE";
     Api.manufacturer := "Reolink";
     Api.hardware_version := "IPC_529B17B8MP";
     Api.sw_version := "v3.0.0.1";
     Api.uid := "9527000000000002";
     Api.session_active := false;
     Api.is_nvr := false;
     Api.camera_name := fun ch => "Lens " +:+ str_of_int ch;
     Api.camera_model := fun ch => "Model " +:+ str_of_int ch;
     Api.camera_sw_version := fun ch => "fw " +:+ str_of_int ch |}.

Definition data_nvr : ReolinkData.t :=
  {| ReolinkData.host := {| ReolinkHost.api := api_nvr;
                            ReolinkHost.unique_id := "ec71db000001" |};
     ReolinkData.device_coordinator :=
       {| DataUpdateCoordinator.last_update_success := true |} |}.

Definition data_camera : ReolinkData.t :=
  {| ReolinkData.host := {| ReolinkHost.api := api_camera;
                            ReolinkHost.unique_id := "ec71db000002" |};
     ReolinkData.device_coordinator :=
       {| DataUpdateCoordinator.last_update_success := true |} |}.

Definition motion : EntityDescription.t :=
  {| EntityDescription.key := "motion";
     EntityDescription.cmd_key := Some "GetMdState" |}.

(** A descriptor whose key starts like a channel prefix. *)
Definition zero_motion : EntityDescription.t :=
  {| EntityDescription.key := "0_motion";
     EntityDescription.cmd_key := Some "GetMdState" |}.

(** A descriptor with no command key. *)
Definition reboot : EntityDescription.t :=
  {| EntityDescription.key := "reboot";
     EntityDescription.cmd_key := None |}.

Definition new (reolink_data : ReolinkData.t) (channel : option Z)
    (entity_description : EntityDescription.t) : Entity :=
  new_entity DOMAIN CONNECTION_NETWORK_MAC DUAL_LENS_MODELS
    reolink_data channel entity_description.

(** The two lenses of the camera behind the recorder, the recorder
    itself, and a lens of the directly connected camera. *)
Definition lens0 : Entity := new data_nvr (Some 0) motion.
Definition lens1 : Entity := new data_nvr (Some 1) motion.
Definition recorder : Entity := new data_nvr None motion.
Definition recorder_zero_motion : Entity := new data_nvr None zero_motion.
Definition camera_lens1 : Entity := new data_camera (Some 1) motion.
Definition camera : Entity := new data_camera None motion.
Definition lens1_reboot : Entity := new data_nvr (Some 1) reboot.
End Sample.

(** ** Hook invocations by the platform

    The platform invokes the hooks of the entities it manages one after
    the other on the event loop; a schedule lists the invocations in the
    order made. *)
Inductive PlatformCall :=
| added_to_hass (e : Entity)
| will_remove_from_hass (e : Entity).

Definition platform_call (p : PlatformCall) : Hook unit :=
  match p with
  | added_to_hass e => async_added_to_hass e
  | will_remove_from_hass e => async_will_remove_from_hass e
  end.

Fixpoint platform_run (schedule : list PlatformCall) : Hook unit :=
  match schedule with
  | [] => mret tt
  | p :: rest => platform_call p ;; platform_run rest
  end.

(** The entities a schedule attaches, and those it removes, in order. *)
Definition attached (schedule : list PlatformCall) : list Entity :=
  flat_map (fun p => match p with
                     | added_to_hass e => [e]
                     | will_remove_from_hass _ => []
                     end) schedule.

Definition removed (schedule : list PlatformCall) : list Entity :=
  flat_map (fun p => match p with
                     | added_to_hass _ => []
                     | will_remove_from_hass e => [e]
                     end) schedule.

(** ** A reference-counted interest set *)

(** Modelled from the spec: the bookkeeping of the device handle behind
    its register and unregister methods, which is not part of this file;
    the spec describes it as a reference-counted interest set.  A
    (command key, optional channel) pair is present with the number of
    registrations not yet unregistered, and unregistering the last one
    drops the pair.  The spec does not say what unregistering an absent
    pair does; here it leaves the set as it is. *)
Module InterestSet.
Definition register (cmd : string) (channel : option Z)
    (m : gmap (string * option Z) positive) : gmap (string * option Z) positive :=
  partial_alter (fun o => match o with
                          | None => Some 1%positive
                          | Some n => Some (Pos.succ n)
                          end) (cmd, channel) m.

Definition unregister (cmd : string) (channel : option Z)
    (m : gmap (string * option Z) positive) : gmap (string * option Z) positive :=
  partial_alter (fun o => match o with
                          | None => None
                          | Some n => if (n =? 1)%positive then None
                                      else Some (Pos.pred n)
                          end) (cmd, channel) m.
End InterestSet.

(** ** A recorder with single-lens cameras *)
Module SampleRecorder.
Definition api : Api.t :=
  {| Api.use_https := true;
     Api.host := "192.168.1.20";
     Api.port := 443;
     Api.mac_address := "ec:71:db:00:00:03";
     Api.nvr_name := "Garage recorder";
     Api.model := "RLN8-410";
     Api.manufacturer := "Reolink";
     Api.hardware_version := "N3MB01";
     Api.sw_version := "v3.3.0.2";
     Api.uid := "9527000000000003";
     Api.session_active := true;
     Api.is_nvr := true;
     Api.camera_name := fun ch => "Camera " +:+ str_of_int ch;
     Api.camera_model := fun ch => "RLC-810A";
     Api.camera_sw_version := fun ch => "v3.1.0.9" |}.

Definition data : ReolinkData.t :=
  {| ReolinkData.host := {| ReolinkHost.api := api;
                            ReolinkHost.unique_id := "ec71db000003" |};
     ReolinkData.device_coordinator :=
       {| DataUpdateCoordinator.last_update_success := false |} |}.

Definition new (channel : option Z) (descr : EntityDescription.t) : Entity :=
  new_entity Sample.DOMAIN Sample.CONNECTION_NETWORK_MAC
    Sample.DUAL_LENS_MODELS data channel descr.

(** Three entities attached and removed, interleaved, the removals not
    in the order of the attachments. *)
Definition schedule : list PlatformCall :=
  [ added_to_hass (new (Some 0) Sample.motion);
    added_to_hass (new None Sample.motion);
    will_remove_from_hass (new (Some 0) Sample.motion);
    added_to_hass (new (Some 1) Sample.motion);
    will_remove_from_hass (new (Some 1) Sample.motion);
    will_remove_from_hass (new None Sample.motion) ].

(** An interest set in which another entity already holds the
    host-scoped interest in [GetMdState]. *)
Definition interest : gmap (string * option Z) positive :=
  {[ ("GetMdState", None) := 1%positive ]}.
End SampleRecorder.

(** * Properties *)

(** ** Strings *)

Lemma string_app_inv_head (p a b : string) : p +:+ a = p +:+ b -> a = b.
Proof.
  induction p as [|c p IH]; simpl; [tauto|].
  intros E. injection E as E. auto.
Qed.

Lemma string_forall_app (P : ascii -> Prop) (a b : string) :
  string_forall P a -> string_forall P b -> string_forall P (a +:+ b).
Proof.
  induction a as [|c a IH]; simpl; [tauto|].
  intros [Hc Ha] Hb. split; auto.
Qed.

(** Two strings without underscore, each followed by an underscore and
    a rest, agree only if they and the rests agree: the first underscore
    marks where the prefix ends. *)
Lemma split_at_underscore (a b x y : string) :
  no_underscore a -> no_underscore b ->
  a +:+ String underscore x = b +:+ String underscore y ->
  a = b /\ x = y.
Proof.
  revert b. induction a as [|c a IH]; intros [|d b]; simpl.
  - intros _ _ E. injection E as E. auto.
  - intros _ [Hd _] E. injection E as E1 E2. congruence.
  - intros [Hc _] _ E. injection E as E1 E2. congruence.
  - intros [_ Ha] [_ Hb] E. injection E as E1 E2.
    destruct (IH b Ha Hb E2) as [-> ->]. subst. auto.
Qed.

(** ** Decimal rendering of integers *)

Lemma to_int_not_nil (z : Z) :
  Z.to_int z <> Decimal.Pos Decimal.Nil /\ Z.to_int z <> Decimal.Neg Decimal.Nil.
Proof.
  destruct z as [|p|p]; simpl; split; try discriminate;
    intros E; injection E as E;
    exact (DecimalPos.Unsigned.to_uint_nonnil p E).
Qed.

Lemma str_of_int_inj (a b : Z) : str_of_int a = str_of_int b -> a = b.
Proof.
  unfold str_of_int. intros E.
  destruct (to_int_not_nil a) as [Ha1 Ha2].
  destruct (to_int_not_nil b) as [Hb1 Hb2].
  apply DecimalZ.to_int_inj.
  pose proof (NilZero.isi _ Ha1 Ha2) as Ia.
  pose proof (NilZero.isi _ Hb1 Hb2) as Ib.
  rewrite E in Ia. congruence.
Qed.

Lemma digits_no_underscore (d : Decimal.uint) :
  no_underscore (NilEmpty.string_of_uint d).
Proof.
  unfold no_underscore, underscore.
  induction d; simpl; auto; split; auto; discriminate.
Qed.

Lemma str_of_int_no_underscore (z : Z) : no_underscore (str_of_int z).
Proof.
  unfold str_of_int, NilZero.string_of_int, NilZero.string_of_uint.
  assert (forall d, no_underscore
            match d with
            | Decimal.Nil => "0"
            | _ => NilEmpty.string_of_uint d
            end) as Hd.
  { intros d. pose proof (digits_no_underscore d) as Hn.
    destruct d; auto. unfold no_underscore, underscore. simpl.
    split; [discriminate | exact I]. }
  destruct (Z.to_int z) as [d|d].
  - apply Hd.
  - split; [unfold underscore; discriminate | apply Hd].
Qed.

(** ** Hooks and the call log *)

(** Runs the four hooks symbolically: their bodies become list
    expressions over the command key of the descriptor. *)
Ltac run_hooks :=
  unfold calls_of, entity_cmd_key; simpl;
  unfold Channel.async_added_to_hass, Channel.async_will_remove_from_hass,
    Host.async_added_to_hass, Host.async_will_remove_from_hass,
    mbind, hook_bind, mret, hook_ret, call; simpl.

(** Every hook only appends to the log it is given. *)
Lemma async_added_to_hass_log (e : Entity) (log : list Call) :
  async_added_to_hass e log
  = (tt, (log ++ calls_of (async_added_to_hass e))%list).
Proof.
  destruct e as [self|self]; run_hooks;
    destruct (EntityDescription.cmd_key _); simpl;
    rewrite <- ?app_assoc; reflexivity.
Qed.

Lemma async_will_remove_from_hass_log (e : Entity) (log : list Call) :
  async_will_remove_from_hass e log
  = (tt, (log ++ calls_of (async_will_remove_from_hass e))%list).
Proof.
  destruct e as [self|self]; run_hooks;
    destruct (EntityDescription.cmd_key _); simpl;
    rewrite <- ?app_assoc; reflexivity.
Qed.

(** The calls of the attach hook, by class and command key. *)
Lemma async_added_to_hass_calls (e : Entity) :
  calls_of (async_added_to_hass e)
  = (CoordinatorEntity_async_added_to_hass ::
     match entity_cmd_key e with
     | None => []
     | Some k =>
         async_register_update_cmd k None ::
         match entity_channel e with
         | None => []
         | Some ch => [async_register_update_cmd k (Some ch)]
         end
     end)%list.
Proof.
  destruct e as [self|self]; run_hooks;
    destruct (EntityDescription.cmd_key _); reflexivity.
Qed.

(** The calls of the remove hook, by class and command key. *)
Lemma async_will_remove_from_hass_calls (e : Entity) :
  calls_of (async_will_remove_from_hass e)
  = (match entity_cmd_key e with
     | None => []
     | Some k =>
         match entity_channel e with
         | None => []
         | Some ch => [async_unregister_update_cmd k (Some ch)]
         end ++ [async_unregister_update_cmd k None]
     end ++ [CoordinatorEntity_async_will_remove_from_hass])%list.
Proof.
  destruct e as [self|self]; run_hooks;
    destruct (EntityDescription.cmd_key _); reflexivity.
Qed.

Lemma lifecycle_calls (e : Entity) :
  calls_of (lifecycle e)
  = (calls_of (async_added_to_hass e)
     ++ calls_of (async_will_remove_from_hass e))%list.
Proof.
  unfold lifecycle, calls_of at 1, mbind, hook_bind.
  rewrite (async_added_to_hass_log e []).
  rewrite async_will_remove_from_hass_log. reflexivity.
Qed.

Lemma registrations_app (l1 l2 : list Call) :
  registrations (l1 ++ l2) = (registrations l1 ++ registrations l2)%list.
Proof. apply flat_map_app. Qed.

Lemma unregistrations_app (l1 l2 : list Call) :
  unregistrations (l1 ++ l2)
  = (unregistrations l1 ++ unregistrations l2)%list.
Proof. apply flat_map_app. Qed.

(** ** Command subscriptions *)

(** C1, as amended.  For an entity whose descriptor declares the command
    key [k], the attach hook first runs the parent hook and then
    registers: a host-scoped entity makes the single call [register(k)];
    a channel-scoped entity at channel [ch] makes two calls, the inherited
    host-scoped [register(k)] followed by the channel-scoped
    [register(k, ch)]. *)
Theorem attach_registrations (e : Entity) (k : string) (log : list Call) :
  entity_cmd_key e = Some k ->
  snd (async_added_to_hass e log)
  = (log ++ CoordinatorEntity_async_added_to_hass
         :: async_register_update_cmd k None
         :: match entity_channel e with
            | None => []
            | Some ch => [async_register_update_cmd k (Some ch)]
            end)%list
  /\ registrations (calls_of (async_added_to_hass e))
     = match entity_channel e with
       | None => [(k, None)]
       | Some ch => [(k, None); (k, Some ch)]
       end.
Proof.
  intros Hk.
  rewrite async_added_to_hass_log, async_added_to_hass_calls, Hk.
  split; [reflexivity|].
  destruct (entity_channel e); reflexivity.
Qed.

(** C2.  Over one attach-then-remove lifecycle the register calls are
    those of the attach hook, the unregister calls those of the remove
    hook, and the unregister calls carry exactly the (command key,
    optional channel) arguments of the register calls, one unregister
    for each register; they are made in the opposite order. *)
Theorem lifecycle_unregisters_pair_registers (e : Entity) :
  registrations (calls_of (lifecycle e))
  = registrations (calls_of (async_added_to_hass e))
  /\ unregistrations (calls_of (lifecycle e))
     = unregistrations (calls_of (async_will_remove_from_hass e))
  /\ unregistrations (calls_of (lifecycle e))
     = rev (registrations (calls_of (lifecycle e)))
  /\ Permutation (unregistrations (calls_of (lifecycle e)))
                 (registrations (calls_of (lifecycle e))).
Proof.
  rewrite lifecycle_calls, registrations_app, unregistrations_app.
  rewrite async_added_to_hass_calls, async_will_remove_from_hass_calls.
  destruct (entity_cmd_key e) as [k|], (entity_channel e) as [ch|]; simpl;
    repeat split; try reflexivity; try apply perm_swap.
Qed.

(** C8.  For an entity whose descriptor has no command key the attach
    hook and the remove hook only run the parent hooks: they make no
    register and no unregister call, and whatever the host object does on
    such calls, its state is left as it was. *)
Theorem no_cmd_key_no_calls (e : Entity) (log : list Call) :
  entity_cmd_key e = None ->
  snd (async_added_to_hass e log)
  = (log ++ [CoordinatorEntity_async_added_to_hass])%list
  /\ snd (async_will_remove_from_hass e log)
     = (log ++ [CoordinatorEntity_async_will_remove_from_hass])%list
  /\ registrations (calls_of (lifecycle e)) = []
  /\ unregistrations (calls_of (lifecycle e)) = []
  /\ forall (H : Type) (register unregister : string -> option Z -> H -> H)
       (h : H),
       handle_run register unregister (calls_of (async_added_to_hass e)) h = h
       /\ handle_run register unregister
            (calls_of (async_will_remove_from_hass e)) h = h
       /\ handle_run register unregister (calls_of (lifecycle e)) h = h.
Proof.
  intros Hk.
  rewrite async_added_to_hass_log, async_will_remove_from_hass_log.
  rewrite lifecycle_calls.
  rewrite async_added_to_hass_calls, async_will_remove_from_hass_calls, Hk.
  repeat split; reflexivity.
Qed.

(** C10.  For an entity whose descriptor declares the command key [k],
    the remove hook makes its unregister calls whatever the log of earlier
    calls is: they are fixed by the descriptor (and the channel of the
    entity), then the parent hook runs.  In particular, started on the
    empty log, where the attach hook never ran, it unregisters although
    nothing was registered. *)
Theorem remove_unregisters_without_attach
    (e : Entity) (k : string) (log : list Call) :
  entity_cmd_key e = Some k ->
  snd (async_will_remove_from_hass e log)
  = (log ++ match entity_channel e with
            | None => []
            | Some ch => [async_unregister_update_cmd k (Some ch)]
            end
         ++ [async_unregister_update_cmd k None;
             CoordinatorEntity_async_will_remove_from_hass])%list
  /\ registrations (snd (async_will_remove_from_hass e [])) = []
  /\ In (k, None) (unregistrations (snd (async_will_remove_from_hass e []))).
Proof.
  intros Hk.
  rewrite !async_will_remove_from_hass_log.
  rewrite async_will_remove_from_hass_calls, Hk.
  destruct (entity_channel e) as [ch|]; simpl; repeat split; auto.
Qed.

(** ** Availability *)

(** C3.  [available] is true exactly when the session flag of the device
    handle and the coordinator's own judgment are both true; it is false
    whenever either one is false, whatever the other; and it leaves the
    call log as it found it. *)
Theorem available_iff (e : Entity) (log : list Call) :
  let session :=
    Api.session_active (ReolinkHost.api (_host (host_super (entity_host e)))) in
  let fresh :=
    DataUpdateCoordinator.last_update_success
      (coordinator (host_super (entity_host e))) in
  snd (entity_available e log) = log
  /\ (fst (entity_available e log) = true <-> session = true /\ fresh = true)
  /\ (session = false -> fst (entity_available e log) = false)
  /\ (fresh = false -> fst (entity_available e log) = false).
Proof.
  unfold entity_available, available, CoordinatorEntity_available,
    mret, hook_ret.
  cbv zeta.
  destruct (Api.session_active _), (DataUpdateCoordinator.last_update_success _);
    simpl; intuition congruence.
Qed.

(** ** Unique ids *)

Section UniqueId.
Variables (DOMAIN CONNECTION_NETWORK_MAC : string).
Variable DUAL_LENS_MODELS : gset string.

Let new := new_entity DOMAIN CONNECTION_NETWORK_MAC DUAL_LENS_MODELS.

(** The unique id as a function of the device unique id, the optional
    channel and the descriptor key alone. *)
Lemma new_entity_unique_id (data : ReolinkData.t) (channel : option Z)
    (descr : EntityDescription.t) :
  entity_unique_id (new data channel descr)
  = ReolinkHost.unique_id (ReolinkData.host data) +:+ "_"
    +:+ match channel with
        | None => EntityDescription.key descr
        | Some ch => str_of_int ch +:+ "_" +:+ EntityDescription.key descr
        end.
Proof. destruct channel; reflexivity. Qed.

(** Two host-scoped ids on one device agree only on equal keys. *)
Lemma host_unique_id_inj (data : ReolinkData.t)
    (d1 d2 : EntityDescription.t) :
  entity_unique_id (new data None d1) = entity_unique_id (new data None d2) ->
  EntityDescription.key d1 = EntityDescription.key d2.
Proof.
  rewrite !new_entity_unique_id. intros E.
  apply string_app_inv_head in E. exact (string_app_inv_head "_" _ _ E).
Qed.

(** Two channel-scoped ids on one device agree only on equal channels
    and equal keys: the decimal channel has no underscore, so it ends
    at the first underscore after the device id. *)
Lemma channel_unique_id_inj (data : ReolinkData.t)
    (d1 d2 : EntityDescription.t) (c1 c2 : Z) :
  entity_unique_id (new data (Some c1) d1)
    = entity_unique_id (new data (Some c2) d2) ->
  c1 = c2 /\ EntityDescription.key d1 = EntityDescription.key d2.
Proof.
  rewrite !new_entity_unique_id. intros E.
  do 2 apply string_app_inv_head in E.
  destruct (split_at_underscore _ _ _ _ (str_of_int_no_underscore c1)
              (str_of_int_no_underscore c2) E) as [Hc Hk].
  split; [apply str_of_int_inj, Hc | exact Hk].
Qed.

(** C4, as amended.  The unique id is a function of (device unique id,
    optional channel, descriptor key): entities set up with equal such
    inputs get equal ids, whatever else differs.  On one device, two
    host-scoped entities with the same id have the same key, and two
    channel-scoped entities with the same id have the same channel and
    the same key.  A host-scoped and a channel-scoped entity have the
    same id exactly when the host-scoped key is the channel number, an
    underscore and the channel-scoped key. *)
Theorem unique_id_deterministic_and_injective_per_class
    (data : ReolinkData.t) (d1 d2 : EntityDescription.t) :
  (forall (data' : ReolinkData.t) (channel : option Z),
      ReolinkHost.unique_id (ReolinkData.host data)
        = ReolinkHost.unique_id (ReolinkData.host data') ->
      EntityDescription.key d1 = EntityDescription.key d2 ->
      entity_unique_id (new data channel d1)
        = entity_unique_id (new data' channel d2))
  /\ (entity_unique_id (new data None d1)
        = entity_unique_id (new data None d2) ->
      EntityDescription.key d1 = EntityDescription.key d2)
  /\ (forall c1 c2 : Z,
      entity_unique_id (new data (Some c1) d1)
        = entity_unique_id (new data (Some c2) d2) ->
      c1 = c2 /\ EntityDescription.key d1 = EntityDescription.key d2)
  /\ (forall c : Z,
      entity_unique_id (new data None d1)
        = entity_unique_id (new data (Some c) d2)
      <-> EntityDescription.key d1
          = str_of_int c +:+ "_" +:+ EntityDescription.key d2).
Proof.
  split; [|split; [|split]].
  - intros data' channel Hu Hk. rewrite !new_entity_unique_id, Hu, Hk.
    reflexivity.
  - apply host_unique_id_inj.
  - intros c1 c2. apply channel_unique_id_inj.
  - intros c. rewrite !new_entity_unique_id. split.
    + intros E. apply string_app_inv_head in E.
      exact (string_app_inv_head "_" _ _ E).
    + intros ->. reflexivity.
Qed.

End UniqueId.

(** ** Device identity *)

Section DeviceIdentity.
Variables (DOMAIN CONNECTION_NETWORK_MAC : string).
Variable DUAL_LENS_MODELS : gset string.

Let base_init :=
  ReolinkBaseCoordinatorEntity__init__ DOMAIN CONNECTION_NETWORK_MAC.
Let channel_init :=
  ReolinkChannelCoordinatorEntity__init__ DOMAIN CONNECTION_NETWORK_MAC
    DUAL_LENS_MODELS.
Let new := new_entity DOMAIN CONNECTION_NETWORK_MAC DUAL_LENS_MODELS.

(** With a dual-lens model the effective channel is 0, so the record
    is the one a channel-0 entity gets. *)
Lemma dual_lens_device_info_fold
    (descr : EntityDescription.t) (data : ReolinkData.t) (channel : Z) :
  Api.model (ReolinkHost.api (ReolinkData.host data)) ∈ DUAL_LENS_MODELS ->
  entity_device_info (ChannelEntity (channel_init descr data channel))
  = entity_device_info (ChannelEntity (channel_init descr data 0)).
Proof.
  intros Hdual.
  unfold entity_device_info, channel_init,
    ReolinkChannelCoordinatorEntity__init__. simpl.
  rewrite (bool_decide_eq_true_2 _ Hdual). reflexivity.
Qed.

(** C5, as amended.  On a recorder (a device whose NVR flag is true)
    whose model is in the dual-lens set, the identity record of a channel
    entity is computed for channel 0 whatever channel it was constructed
    with: its identifier has the suffix [_ch0], its name, model and
    firmware version are those of camera channel 0, and the whole record
    is the one of a channel-0 entity. *)
Theorem dual_lens_recorder_identity_is_channel_0
    (descr : EntityDescription.t) (data : ReolinkData.t) (channel : Z) :
  let host := ReolinkData.host data in
  let api := ReolinkHost.api host in
  let info := entity_device_info (ChannelEntity (channel_init descr data channel)) in
  Api.model api ∈ DUAL_LENS_MODELS ->
  Api.is_nvr api = true ->
  DeviceInfo.identifiers info
    = Some {[ (DOMAIN, ReolinkHost.unique_id host +:+ "_ch0") ]}
  /\ DeviceInfo.name info = Some (Api.camera_name api 0)
  /\ DeviceInfo.model info = Some (Api.camera_model api 0)
  /\ DeviceInfo.sw_version info = Some (Api.camera_sw_version api 0)
  /\ info = entity_device_info (ChannelEntity (channel_init descr data 0)).
Proof.
  intros host api info Hdual Hnvr. subst info host api.
  assert (entity_device_info (ChannelEntity (channel_init descr data channel))
          = entity_device_info (ChannelEntity (channel_init descr data 0)))
    as Hfold by (apply dual_lens_device_info_fold, Hdual).
  revert Hfold.
  unfold entity_device_info, channel_init,
    ReolinkChannelCoordinatorEntity__init__. simpl.
  rewrite (bool_decide_eq_true_2 _ Hdual), Hnvr. simpl.
  intros Hfold. repeat (split; [reflexivity|]). exact Hfold.
Qed.

(** C6.  On a device that is not a recorder, the identity record of a
    channel entity is the host-level record the base class derives,
    field for field. *)
Theorem single_camera_identity_is_host_identity
    (descr : EntityDescription.t) (data : ReolinkData.t) (channel : Z) :
  Api.is_nvr (ReolinkHost.api (ReolinkData.host data)) = false ->
  entity_device_info (ChannelEntity (channel_init descr data channel))
  = _attr_device_info
      (base_init data (ReolinkData.device_coordinator data))
  /\ entity_device_info (new data (Some channel) descr)
     = entity_device_info (new data None descr).
Proof.
  intros Hnvr.
  unfold new, new_entity, entity_device_info, channel_init,
    ReolinkChannelCoordinatorEntity__init__. simpl.
  rewrite Hnvr. split; reflexivity.
Qed.


(** C9.  Dual-lens folding touches the identity record only.  The
    unique id of a channel entity embeds the channel it was constructed
    with and its hooks pass that channel to the channel-scoped register
    and unregister calls, whatever the model.  So on a dual-lens device
    two channel entities of one descriptor at different channels have
    different unique ids and different registrations, and the same
    identity record. *)
Theorem dual_lens_folding_only_in_identity
    (descr : EntityDescription.t) (data : ReolinkData.t) (channel : Z) :
  let self := channel_init descr data channel in
  (_channel self = channel
   /\ entity_unique_id (ChannelEntity self)
      = ReolinkHost.unique_id (ReolinkData.host data) +:+ "_"
        +:+ str_of_int channel +:+ "_" +:+ EntityDescription.key descr
   /\ forall k, EntityDescription.cmd_key descr = Some k ->
        registrations (calls_of (async_added_to_hass (ChannelEntity self)))
          = [(k, None); (k, Some channel)]
        /\ unregistrations
             (calls_of (async_will_remove_from_hass (ChannelEntity self)))
           = [(k, Some channel); (k, None)])
  /\ (Api.model (ReolinkHost.api (ReolinkData.host data)) ∈ DUAL_LENS_MODELS ->
      forall channel', channel <> channel' ->
        let other := channel_init descr data channel' in
        entity_unique_id (ChannelEntity self)
          <> entity_unique_id (ChannelEntity other)
        /\ (forall k, EntityDescription.cmd_key descr = Some k ->
              registrations
                (calls_of (async_added_to_hass (ChannelEntity self)))
              <> registrations
                   (calls_of (async_added_to_hass (ChannelEntity other)))
              /\ unregistrations
                   (calls_of (async_will_remove_from_hass (ChannelEntity self)))
                 <> unregistrations
                      (calls_of
                         (async_will_remove_from_hass (ChannelEntity other))))
        /\ entity_device_info (ChannelEntity self)
           = entity_device_info (ChannelEntity other)).
Proof.
  intros self. subst self.
  assert (forall ch k, EntityDescription.cmd_key descr = Some k ->
    registrations
      (calls_of (async_added_to_hass (ChannelEntity (channel_init descr data ch))))
      = [(k, None); (k, Some ch)]
    /\ unregistrations
         (calls_of (async_will_remove_from_hass
                      (ChannelEntity (channel_init descr data ch))))
       = [(k, Some ch); (k, None)]) as Hcalls.
  { intros ch k Hk.
    rewrite async_added_to_hass_calls, async_will_remove_from_hass_calls.
    unfold entity_cmd_key. simpl. rewrite Hk. split; reflexivity. }
  split.
  - split; [reflexivity|]. split; [reflexivity|]. apply Hcalls.
  - intros Hdual channel' Hne other. subst other.
    split; [|split].
    + intros E.
      destruct (channel_unique_id_inj DOMAIN CONNECTION_NETWORK_MAC
                  DUAL_LENS_MODELS data descr descr channel channel' E)
        as [Hc _].
      contradiction.
    + intros k Hk.
      destruct (Hcalls channel k Hk) as [-> ->].
      destruct (Hcalls channel' k Hk) as [-> ->].
      split; intros E; inversion E; contradiction.
    + rewrite (dual_lens_device_info_fold descr data channel Hdual).
      rewrite (dual_lens_device_info_fold descr data channel' Hdual).
      reflexivity.
Qed.

End DeviceIdentity.

(** ** The properties on the sample devices *)

Lemma sample_model_is_dual_lens :
  Api.model Sample.api_nvr ∈ Sample.DUAL_LENS_MODELS.
Proof. unfold Sample.DUAL_LENS_MODELS. simpl. set_solver. Qed.

(** C1 fails as stated: the attach hook of a channel entity with a
    command key makes both the host-scoped and the channel-scoped
    register call, two calls and not one. *)
Lemma attach_channel_registers_twice :
  entity_cmd_key Sample.lens1 = Some "GetMdState"
  /\ entity_channel Sample.lens1 = Some 1
  /\ registrations (calls_of (async_added_to_hass Sample.lens1))
     = [("GetMdState", None); ("GetMdState", Some 1)]
  /\ length (registrations (calls_of (async_added_to_hass Sample.lens1)))
     <> 1%nat.
Proof. repeat split; try reflexivity. discriminate. Qed.

Lemma attach_registrations_witness :
  registrations (calls_of (async_added_to_hass Sample.recorder))
  = [("GetMdState", None)]
  /\ registrations (calls_of (async_added_to_hass Sample.lens1))
     = [("GetMdState", None); ("GetMdState", Some 1)].
Proof.
  split.
  - exact (proj2 (attach_registrations Sample.recorder "GetMdState" [] eq_refl)).
  - exact (proj2 (attach_registrations Sample.lens1 "GetMdState" [] eq_refl)).
Defined.

Lemma no_cmd_key_no_calls_witness :
  snd (async_added_to_hass Sample.lens1_reboot [])
  = [CoordinatorEntity_async_added_to_hass]
  /\ snd (async_will_remove_from_hass Sample.lens1_reboot [])
     = [CoordinatorEntity_async_will_remove_from_hass].
Proof.
  destruct (no_cmd_key_no_calls Sample.lens1_reboot [] eq_refl)
    as [Hadd [Hremove _]].
  split; [exact Hadd | exact Hremove].
Defined.

Lemma remove_unregisters_without_attach_witness :
  snd (async_will_remove_from_hass Sample.lens1 [])
  = [async_unregister_update_cmd "GetMdState" (Some 1);
     async_unregister_update_cmd "GetMdState" None;
     CoordinatorEntity_async_will_remove_from_hass]
  /\ registrations (snd (async_will_remove_from_hass Sample.lens1 [])) = [].
Proof.
  destruct (remove_unregisters_without_attach Sample.lens1 "GetMdState" []
              eq_refl) as [Hlog [Hreg _]].
  split; [exact Hlog | exact Hreg].
Defined.

(** C4 fails as stated: on one device, the host-scoped entity with key
    [0_motion] and the channel-scoped entity at channel 0 with key
    [motion] differ in (optional channel, key) and have the same unique
    id. *)
Lemma unique_id_collision :
  (entity_channel Sample.recorder_zero_motion,
   EntityDescription.key
     (entity_description (entity_host Sample.recorder_zero_motion)))
  <> (entity_channel Sample.lens0,
      EntityDescription.key (entity_description (entity_host Sample.lens0)))
  /\ entity_unique_id Sample.recorder_zero_motion
     = entity_unique_id Sample.lens0
  /\ entity_unique_id Sample.lens0 = "ec71db000001_0_motion".
Proof. repeat split; try reflexivity. discriminate. Qed.

Lemma unique_id_witness :
  entity_unique_id Sample.recorder_zero_motion = entity_unique_id Sample.lens0
  /\ (entity_unique_id Sample.lens1 = entity_unique_id Sample.lens1 ->
      1 = 1 /\ "motion" = "motion").
Proof.
  pose proof (unique_id_deterministic_and_injective_per_class
                Sample.DOMAIN Sample.CONNECTION_NETWORK_MAC
                Sample.DUAL_LENS_MODELS Sample.data_nvr) as U.
  split.
  - destruct (U Sample.zero_motion Sample.motion) as [_ [_ [_ Hmixed]]].
    exact (proj2 (Hmixed 0) eq_refl).
  - destruct (U Sample.motion Sample.motion) as [_ [_ [Hchannel _]]].
    exact (Hchannel 1 1).
Defined.

Lemma dual_lens_recorder_identity_is_channel_0_witness :
  DeviceInfo.name (entity_device_info Sample.lens1) = Some "Lens 0"
  /\ DeviceInfo.model (entity_device_info Sample.lens1) = Some "Model 0"
  /\ DeviceInfo.sw_version (entity_device_info Sample.lens1) = Some "fw 0"
  /\ entity_device_info Sample.lens1 = entity_device_info Sample.lens0.
Proof.
  destruct (dual_lens_recorder_identity_is_channel_0
              Sample.DOMAIN Sample.CONNECTION_NETWORK_MAC
              Sample.DUAL_LENS_MODELS Sample.motion Sample.data_nvr 1
              sample_model_is_dual_lens eq_refl)
    as [_ [Hname [Hmodel [Hsw Hfold]]]].
  split; [exact Hname | split; [exact Hmodel | split; [exact Hsw | exact Hfold]]].
Defined.

Lemma single_camera_identity_is_host_identity_witness :
  entity_device_info Sample.camera_lens1 = entity_device_info Sample.camera
  /\ DeviceInfo.name (entity_device_info Sample.camera_lens1)
     = Some "Front door".
Proof.
  destruct (single_camera_identity_is_host_identity
              Sample.DOMAIN Sample.CONNECTION_NETWORK_MAC
              Sample.DUAL_LENS_MODELS Sample.motion Sample.data_camera 1
              eq_refl) as [Hbase Hhost].
  split; [exact Hhost | exact (f_equal DeviceInfo.name Hbase)].
Defined.


Lemma dual_lens_folding_only_in_identity_witness :
  entity_unique_id Sample.lens1 <> entity_unique_id Sample.lens0
  /\ registrations (calls_of (async_added_to_hass Sample.lens1))
     <> registrations (calls_of (async_added_to_hass Sample.lens0))
  /\ entity_device_info Sample.lens1 = entity_device_info Sample.lens0.
Proof.
  destruct (dual_lens_folding_only_in_identity
              Sample.DOMAIN Sample.CONNECTION_NETWORK_MAC
              Sample.DUAL_LENS_MODELS Sample.motion Sample.data_nvr 1)
    as [_ Hlenses].
  assert (1 <> 0) as Hne by discriminate.
  destruct (Hlenses sample_model_is_dual_lens 0 Hne) as [Hid [Hcalls Hinfo]].
  split; [exact Hid | split; [exact (proj1 (Hcalls _ eq_refl)) | exact Hinfo]].
Defined.

(** * Further properties *)

(** ** Lengths of strings *)

Lemma string_app_length (a b : string) :
  String.length (a +:+ b) = (String.length a + String.length b)%nat.
Proof. induction a as [|c a IH]; simpl; [reflexivity | rewrite IH; reflexivity]. Qed.

(** A string is not itself followed by something non-empty. *)
Lemma string_app_ne_self (p : string) (c : ascii) (r : string) :
  p +:+ String c r <> p.
Proof.
  intros E. apply (f_equal String.length) in E.
  rewrite string_app_length in E. simpl in E. lia.
Qed.

(** ** Hooks on any device handle *)

(** The calls of a schedule are those of its invocations, in order. *)
Lemma platform_call_log (p : PlatformCall) (log : list Call) :
  platform_call p log = (tt, (log ++ calls_of (platform_call p))%list).
Proof.
  destruct p as [e|e]; simpl;
    [apply async_added_to_hass_log | apply async_will_remove_from_hass_log].
Qed.

Lemma platform_run_log (schedule : list PlatformCall) (log : list Call) :
  platform_run schedule log
  = (tt, (log ++ calls_of (platform_run schedule))%list).
Proof.
  revert log. induction schedule as [|p rest IH]; intros log.
  - unfold calls_of. simpl. unfold mret, hook_ret. simpl.
    rewrite app_nil_r. reflexivity.
  - unfold calls_of. simpl. unfold mbind, hook_bind.
    rewrite (platform_call_log p log), (platform_call_log p []).
    rewrite (IH (log ++ _)%list), (IH ([] ++ _)%list). simpl.
    rewrite app_assoc. reflexivity.
Qed.

Lemma platform_run_cons (p : PlatformCall) (rest : list PlatformCall) :
  calls_of (platform_run (p :: rest))
  = (calls_of (platform_call p) ++ calls_of (platform_run rest))%list.
Proof.
  unfold calls_of at 1. simpl. unfold mbind, hook_bind.
  rewrite (platform_call_log p []), platform_run_log. reflexivity.
Qed.

(** The attach hook makes no unregister call, the remove hook no
    register call. *)
Lemma attach_unregisters_nothing (e : Entity) :
  unregistrations (calls_of (async_added_to_hass e)) = [].
Proof.
  rewrite async_added_to_hass_calls.
  destruct (entity_cmd_key e), (entity_channel e); reflexivity.
Qed.

Lemma remove_registers_nothing (e : Entity) :
  registrations (calls_of (async_will_remove_from_hass e)) = [].
Proof.
  rewrite async_will_remove_from_hass_calls.
  destruct (entity_cmd_key e), (entity_channel e); reflexivity.
Qed.

(** What one entity registers on attach it unregisters on removal. *)
Lemma remove_unregisters_what_attach_registers (e : Entity) :
  Permutation (registrations (calls_of (async_added_to_hass e)))
              (unregistrations (calls_of (async_will_remove_from_hass e))).
Proof.
  rewrite async_added_to_hass_calls, async_will_remove_from_hass_calls.
  destruct (entity_cmd_key e), (entity_channel e); simpl;
    try reflexivity. apply perm_swap.
Qed.

(** The register calls of a schedule are those of the attach hooks of
    the entities it attaches; its unregister calls are those of the
    remove hooks of the entities it removes. *)
Lemma platform_run_registrations (schedule : list PlatformCall) :
  registrations (calls_of (platform_run schedule))
  = flat_map (fun e => registrations (calls_of (async_added_to_hass e)))
      (attached schedule).
Proof.
  induction schedule as [|[e|e] rest IH].
  - reflexivity.
  - rewrite platform_run_cons, registrations_app. simpl.
    f_equal. apply IH.
  - rewrite platform_run_cons, registrations_app. simpl.
    rewrite remove_registers_nothing. apply IH.
Qed.

Lemma platform_run_unregistrations (schedule : list PlatformCall) :
  unregistrations (calls_of (platform_run schedule))
  = flat_map
      (fun e => unregistrations (calls_of (async_will_remove_from_hass e)))
      (removed schedule).
Proof.
  induction schedule as [|[e|e] rest IH].
  - reflexivity.
  - rewrite platform_run_cons, unregistrations_app. simpl.
    rewrite attach_unregisters_nothing. apply IH.
  - rewrite platform_run_cons, unregistrations_app. simpl.
    f_equal. apply IH.
Qed.

(** X1.  On any device handle on which unregistering undoes the
    matching registration just made, one attach-then-remove lifecycle of
    an entity leaves the handle as it found it: the remove hook undoes
    the registrations of the attach hook innermost first, so nothing has
    to be assumed about calls with different arguments. *)
Theorem lifecycle_restores_handle
    (H : Type) (register unregister : string -> option Z -> H -> H)
    (e : Entity) (h : H) :
  (forall cmd channel h', unregister cmd channel (register cmd channel h') = h') ->
  handle_run register unregister (calls_of (lifecycle e)) h = h.
Proof.
  intros Hundo.
  rewrite lifecycle_calls.
  rewrite async_added_to_hass_calls, async_will_remove_from_hass_calls.
  destruct (entity_cmd_key e) as [k|], (entity_channel e) as [ch|];
    simpl; rewrite ?Hundo; reflexivity.
Qed.

(** X2.  Whatever the descriptor, the attach hook runs the parent hook
    once and first, and everything after it is a register call; the
    remove hook runs the parent hook once and last, and everything before
    it is an unregister call. *)
Theorem hooks_call_shape (e : Entity) :
  (exists regs,
      calls_of (async_added_to_hass e)
      = CoordinatorEntity_async_added_to_hass :: regs
      /\ Forall (fun c => exists cmd ch, c = async_register_update_cmd cmd ch)
                regs)
  /\ (exists unregs,
      calls_of (async_will_remove_from_hass e)
      = (unregs ++ [CoordinatorEntity_async_will_remove_from_hass])%list
      /\ Forall (fun c => exists cmd ch, c = async_unregister_update_cmd cmd ch)
                unregs).
Proof.
  rewrite async_added_to_hass_calls, async_will_remove_from_hass_calls.
  split; eexists; (split; [reflexivity|]);
    destruct (entity_cmd_key e), (entity_channel e);
    repeat constructor; eauto.
Qed.

(** X3.  In any schedule of hook invocations that removes the entities
    it attaches (each as often as it is attached, in any order and
    interleaving), the register calls and the unregister calls made carry
    the same (command key, optional channel) arguments, each as often. *)
Theorem balanced_schedule_balances_calls (schedule : list PlatformCall) :
  Permutation (attached schedule) (removed schedule) ->
  Permutation (registrations (calls_of (platform_run schedule)))
              (unregistrations (calls_of (platform_run schedule))).
Proof.
  intros Hbalanced.
  rewrite platform_run_registrations, platform_run_unregistrations.
  rewrite Hbalanced. clear Hbalanced.
  induction (removed schedule) as [|e es IH]; simpl.
  - reflexivity.
  - apply Permutation_app;
      [apply remove_unregisters_what_attach_registers | exact IH].
Qed.

(** ** Unique ids and identity records across entities *)

Section AcrossEntities.
Variables (DOMAIN CONNECTION_NETWORK_MAC : string).
Variable DUAL_LENS_MODELS : gset string.

Let new := new_entity DOMAIN CONNECTION_NETWORK_MAC DUAL_LENS_MODELS.

(** X4.  On one device a host-scoped and a channel-scoped entity whose
    descriptors have the same key never have the same unique id: the
    channel-scoped id is longer by the channel and an underscore. *)
Theorem same_key_host_and_channel_ids_differ
    (data : ReolinkData.t) (d1 d2 : EntityDescription.t) (channel : Z) :
  EntityDescription.key d1 = EntityDescription.key d2 ->
  entity_unique_id (new data None d1)
  <> entity_unique_id (new data (Some channel) d2).
Proof.
  intros Hk E. unfold new in E. rewrite !new_entity_unique_id in E.
  do 2 apply string_app_inv_head in E.
  apply (f_equal String.length) in E.
  rewrite Hk, !string_app_length in E. simpl in E. lia.
Qed.

(** X5.  When the unique ids of two devices contain no underscore (they
    are MAC addresses or serials), entities of different devices never
    have the same unique id, whatever their classes, channels and keys. *)
Theorem unique_ids_differ_across_devices
    (data1 data2 : ReolinkData.t) (c1 c2 : option Z)
    (d1 d2 : EntityDescription.t) :
  no_underscore (ReolinkHost.unique_id (ReolinkData.host data1)) ->
  no_underscore (ReolinkHost.unique_id (ReolinkData.host data2)) ->
  ReolinkHost.unique_id (ReolinkData.host data1)
    <> ReolinkHost.unique_id (ReolinkData.host data2) ->
  entity_unique_id (new data1 c1 d1) <> entity_unique_id (new data2 c2 d2).
Proof.
  intros H1 H2 Hne E. unfold new in E. rewrite !new_entity_unique_id in E.
  apply Hne. exact (proj1 (split_at_underscore _ _ _ _ H1 H2 E)).
Qed.

(** X6.  The identity record does not depend on the descriptor: all
    entities of one device and one channel (and all host-scoped entities
    of one device) carry the same record, so they are grouped under one
    device. *)
Theorem identity_independent_of_descriptor
    (data : ReolinkData.t) (channel : option Z)
    (d1 d2 : EntityDescription.t) :
  entity_device_info (new data channel d1)
  = entity_device_info (new data channel d2).
Proof. destruct channel; reflexivity. Qed.

(** X7.  Every entity set up on a device, host-scoped or channel-scoped
    and whatever its descriptor, answers [available] with the session
    flag of the device handle and the state of the device coordinator of
    that device, and makes no call doing so: the entities of a device
    become unavailable together. *)
Theorem available_per_device
    (data : ReolinkData.t) (channel : option Z)
    (descr : EntityDescription.t) (log : list Call) :
  entity_available (new data channel descr) log
  = (Api.session_active (ReolinkHost.api (ReolinkData.host data))
     && DataUpdateCoordinator.last_update_success
          (ReolinkData.device_coordinator data),
     log).
Proof.
  destruct channel; unfold entity_available, available,
    CoordinatorEntity_available, mret, hook_ret; simpl;
    destruct (Api.session_active _); reflexivity.
Qed.

(** Singleton sets of identifiers are equal only on equal elements. *)
Lemma identifier_singleton_inj (a b : string * string) :
  ({[ a ]} : gset (string * string)) = {[ b ]} -> a = b.
Proof.
  intros E.
  assert (a ∈ ({[ b ]} : gset (string * string))) as Hin.
  { rewrite <- E. apply elem_of_singleton. reflexivity. }
  apply elem_of_singleton in Hin. exact Hin.
Qed.

(** The identifier of a channel entity behind a recorder. *)
Lemma recorder_channel_identifiers
    (data : ReolinkData.t) (channel : Z) (d : EntityDescription.t) :
  Api.is_nvr (ReolinkHost.api (ReolinkData.host data)) = true ->
  DeviceInfo.identifiers (entity_device_info (new data (Some channel) d))
  = Some {[ (DOMAIN,
             ReolinkHost.unique_id (ReolinkData.host data) +:+ "_ch"
               +:+ str_of_int
                     (if bool_decide
                           (Api.model (ReolinkHost.api (ReolinkData.host data))
                              ∈ DUAL_LENS_MODELS)
                      then 0 else channel)) ]}.
Proof.
  unfold new, new_entity, entity_device_info,
    ReolinkChannelCoordinatorEntity__init__. simpl.
  intros ->. reflexivity.
Qed.

(** X8.  Behind a recorder whose model is not in the dual-lens set,
    channel entities at different channels have different device
    identifiers: each camera is a device of its own. *)
Theorem recorder_channels_have_distinct_identifiers
    (data : ReolinkData.t) (c1 c2 : Z) (d1 d2 : EntityDescription.t) :
  Api.is_nvr (ReolinkHost.api (ReolinkData.host data)) = true ->
  Api.model (ReolinkHost.api (ReolinkData.host data)) ∉ DUAL_LENS_MODELS ->
  c1 <> c2 ->
  DeviceInfo.identifiers (entity_device_info (new data (Some c1) d1))
  <> DeviceInfo.identifiers (entity_device_info (new data (Some c2) d2)).
Proof.
  intros Hnvr Hsingle Hne E. apply Hne.
  rewrite !recorder_channel_identifiers in E by exact Hnvr.
  rewrite (bool_decide_eq_false_2 _ Hsingle) in E.
  apply (inj Some), identifier_singleton_inj in E.
  injection E as E.
  apply string_app_inv_head in E.
  apply (string_app_inv_head "_ch") in E.
  apply str_of_int_inj, E.
Qed.

(** X9.  Behind a recorder, the identity record of a channel entity is
    linked to the recorder: its via-device is exactly the identifier a
    host-scoped entity gives the recorder, its own identifier is a
    different one, and it has the recorder's configuration URL. *)
Theorem recorder_channel_links_to_recorder
    (data : ReolinkData.t) (channel : Z) (d d' : EntityDescription.t) :
  Api.is_nvr (ReolinkHost.api (ReolinkData.host data)) = true ->
  let camera := entity_device_info (new data (Some channel) d) in
  let recorder := entity_device_info (new data None d') in
  (exists x, DeviceInfo.via_device camera = Some x
             /\ DeviceInfo.identifiers recorder = Some {[ x ]})
  /\ DeviceInfo.identifiers camera <> DeviceInfo.identifiers recorder
  /\ DeviceInfo.configuration_url camera
     = DeviceInfo.configuration_url recorder.
Proof.
  intros Hnvr camera recorder. subst camera recorder.
  split; [|split].
  - unfold new, new_entity, entity_device_info,
      ReolinkChannelCoordinatorEntity__init__. simpl.
    rewrite Hnvr. eexists. split; reflexivity.
  - rewrite recorder_channel_identifiers by exact Hnvr.
    intros E.
    change (DeviceInfo.identifiers (entity_device_info (new data None d')))
      with (Some ({[ (DOMAIN, ReolinkHost.unique_id (ReolinkData.host data)) ]}
                    : gset (string * string))) in E.
    apply (inj Some), identifier_singleton_inj in E.
    injection E as E.
    exact (string_app_ne_self _ _ _ E).
  - unfold new, new_entity, entity_device_info,
      ReolinkChannelCoordinatorEntity__init__. simpl.
    rewrite Hnvr. reflexivity.
Qed.

End AcrossEntities.

(** ** The further properties on the sample devices *)

(** Unregistering undoes the registration just made, on every interest
    set. *)
Lemma interest_unregister_register
    (cmd : string) (channel : option Z) (m : gmap (string * option Z) positive) :
  InterestSet.unregister cmd channel (InterestSet.register cmd channel m) = m.
Proof.
  unfold InterestSet.unregister, InterestSet.register.
  rewrite partial_alter_partial_alter_eq.
  apply partial_alter_id. unfold compose.
  destruct (m !! (cmd, channel)) as [n|]; [|reflexivity].
  cbv beta iota.
  destruct (Pos.eqb_spec (Pos.succ n) 1) as [E|_]; [lia|].
  rewrite Pos.pred_succ. reflexivity.
Qed.

Lemma lifecycle_restores_handle_witness :
  handle_run InterestSet.register InterestSet.unregister
    (calls_of (lifecycle Sample.lens1)) SampleRecorder.interest
  = SampleRecorder.interest.
Proof.
  apply lifecycle_restores_handle. exact interest_unregister_register.
Defined.

Lemma balanced_schedule_balances_calls_witness :
  Permutation
    (registrations (calls_of (platform_run SampleRecorder.schedule)))
    (unregistrations (calls_of (platform_run SampleRecorder.schedule))).
Proof.
  apply balanced_schedule_balances_calls.
  unfold SampleRecorder.schedule. simpl.
  apply perm_skip, perm_swap.
Defined.

Lemma same_key_host_and_channel_ids_differ_witness :
  entity_unique_id Sample.recorder <> entity_unique_id Sample.lens0.
Proof.
  exact (same_key_host_and_channel_ids_differ
           Sample.DOMAIN Sample.CONNECTION_NETWORK_MAC Sample.DUAL_LENS_MODELS
           Sample.data_nvr Sample.motion Sample.motion 0 eq_refl).
Defined.

Lemma sample_unique_ids_no_underscore :
  no_underscore (ReolinkHost.unique_id (ReolinkData.host Sample.data_nvr))
  /\ no_underscore (ReolinkHost.unique_id (ReolinkData.host Sample.data_camera)).
Proof.
  unfold no_underscore, underscore. simpl.
  repeat split; discriminate.
Qed.

Lemma unique_ids_differ_across_devices_witness :
  entity_unique_id Sample.lens1 <> entity_unique_id Sample.camera_lens1.
Proof.
  apply (unique_ids_differ_across_devices
           Sample.DOMAIN Sample.CONNECTION_NETWORK_MAC Sample.DUAL_LENS_MODELS
           Sample.data_nvr Sample.data_camera (Some 1) (Some 1)
           Sample.motion Sample.motion
           (proj1 sample_unique_ids_no_underscore)
           (proj2 sample_unique_ids_no_underscore)).
  discriminate.
Defined.

Lemma sample_recorder_model_is_single_lens :
  Api.model SampleRecorder.api ∉ Sample.DUAL_LENS_MODELS.
Proof.
  unfold Sample.DUAL_LENS_MODELS.
  intros [Hin|Hin]%elem_of_union; apply elem_of_singleton in Hin;
    discriminate.
Qed.

Lemma recorder_channels_have_distinct_identifiers_witness :
  DeviceInfo.identifiers
    (entity_device_info (SampleRecorder.new (Some 0) Sample.motion))
  <> DeviceInfo.identifiers
       (entity_device_info (SampleRecorder.new (Some 1) Sample.reboot)).
Proof.
  apply (recorder_channels_have_distinct_identifiers
           Sample.DOMAIN Sample.CONNECTION_NETWORK_MAC Sample.DUAL_LENS_MODELS
           SampleRecorder.data 0 1 Sample.motion Sample.reboot eq_refl
           sample_recorder_model_is_single_lens).
  discriminate.
Defined.

Lemma recorder_channel_links_to_recorder_witness :
  DeviceInfo.via_device
    (entity_device_info (SampleRecorder.new (Some 1) Sample.motion))
  = Some ("reolink", "ec71db000003")
  /\ DeviceInfo.identifiers
       (entity_device_info (SampleRecorder.new (Some 1) Sample.motion))
     <> DeviceInfo.identifiers
          (entity_device_info (SampleRecorder.new None Sample.reboot)).
Proof.
  destruct (recorder_channel_links_to_recorder
              Sample.DOMAIN Sample.CONNECTION_NETWORK_MAC
              Sample.DUAL_LENS_MODELS SampleRecorder.data 1
              Sample.motion Sample.reboot eq_refl) as [_ [Hne _]].
  split; [reflexivity | exact Hne].
Defined.

(** C5 fails as stated: a dual-lens camera connected directly (NVR flag
    false) has a channel entity whose identity record is the host-level
    one; its identifier has no [_ch0] suffix and its name, model and
    firmware version are those of the device, not those of camera
    channel 0. *)
Lemma dual_lens_camera_identity_is_host_level :
  Api.model Sample.api_camera ∈ Sample.DUAL_LENS_MODELS
  /\ Api.is_nvr Sample.api_camera = false
  /\ DeviceInfo.identifiers (entity_device_info Sample.camera_lens1)
     <> Some {[ (Sample.DOMAIN, "ec71db000002" +:+ "_ch0") ]}
  /\ DeviceInfo.name (entity_device_info Sample.camera_lens1)
     = Some "Front door"
  /\ DeviceInfo.name (entity_device_info Sample.camera_lens1)
     <> Some (Api.camera_name Sample.api_camera 0)
  /\ DeviceInfo.model (entity_device_info Sample.camera_lens1)
     <> Some (Api.camera_model Sample.api_camera 0)
  /\ DeviceInfo.sw_version (entity_device_info Sample.camera_lens1)
     <> Some (Api.camera_sw_version Sample.api_camera 0).
Proof.
  split; [exact sample_model_is_dual_lens|].
  split; [reflexivity|].
  split; [|split; [reflexivity|repeat split; discriminate]].
  intros E.
  change (DeviceInfo.identifiers (entity_device_info Sample.camera_lens1))
    with (Some ({[ (Sample.DOMAIN, "ec71db000002") ]}
                  : gset (string * string))) in E.
  apply (inj Some), identifier_singleton_inj in E. discriminate.
Qed.
